(** * Functions and modules: a verified reading of the chapter's code cells

    The chapter (notebook [07-functions-modules.ipynb]) defines a handful of
    small Python functions: [greeting], [square], [hypot], the module
    [vectools] with [norm] and [unitvector], and [primes5].  This file embeds
    them in Rocq and proves what they compute.

    Data is modelled as Python has it:
    - a Python [float] (and a [numpy.float64]) is an IEEE 754 binary64 number,
      here Rocq's primitive [float] with its specification [Prim2SF];
    - a Python [int] is an unbounded integer, here [Z];
    - a [numpy.int64] is a 64-bit two's complement integer, here a [Z] with
      the wrap-around [wrap64] written out at every operation;
    - a numpy array is one-dimensional, of dtype [int64] (what
      [N.array([0, 1, 2])] builds on a 64-bit Linux or macOS) or [float64];
    - an exception is a value of [exn]; a computation that may raise returns
      a [result];
    - printing threads the text written to standard output.

    Complex numbers, booleans and the other numpy dtypes are left out, and
    memory is taken to be unbounded: no [MemoryError]. *)

From Stdlib Require Import ZArith List Sorted Bool String Ascii Lia QArith Qabs Znumtheory.
From Stdlib Require Import Floats.
From Stdlib Require Import DecimalString Permutation.
Import ListNotations.

Set Implicit Arguments.

(** ** Exceptions and results *)

Inductive exn : Type :=
| ValueError (msg : string)
| OverflowError (msg : string).

Inductive result (A : Type) : Type :=
| Ok (a : A)
| Raise (e : exn).

Arguments Ok {A} a.
Arguments Raise {A} e.

Definition bind {A B : Type} (r : result A) (k : A -> result B) : result B :=
  match r with
  | Ok a => k a
  | Raise e => Raise e
  end.

Notation "x <- r ;; k" := (bind r (fun x => k))
  (at level 61, r at next level, right associativity).

(** [is_value_error r]: the computation raised a [ValueError], whatever its
    message. *)
Definition is_value_error {A : Type} (r : result A) : Prop :=
  exists msg, r = Raise (ValueError msg).

Definition returns {A : Type} (r : result A) : Prop :=
  exists a, r = Ok a.

(** ** Numbers *)

Module Float64.

Local Open Scope float_scope.

(** Conversion of an integer to the nearest binary64 number, ties to even;
    an integer beyond the largest finite float becomes an infinity. *)
Definition of_Z_sf (z : Z) : spec_float := binary_normalize prec emax z 0 false.

Definition of_Z (z : Z) : float := SF2Prim (of_Z_sf z).

(** The exact rational value of a finite float. *)
Definition to_Q (f : float) : option Q :=
  match Prim2SF f with
  | S754_zero _ => Some 0%Q
  | S754_finite s m e =>
      let q := (inject_Z (Zpos m) * Qpower 2 e)%Q in
      Some (if s then Qopp q else q)
  | _ => None
  end.

End Float64.

(** A Python number: an [int] or a [float]. *)
Inductive num : Type :=
| PyInt (z : Z)
| PyFloat (f : float).

(** [float(z)] for a Python [int]: correctly rounded, and an [OverflowError]
    when the rounded value is not finite. *)
Definition float_of_pyint (z : Z) : result float :=
  match Float64.of_Z_sf z with
  | S754_infinity _ => Raise (OverflowError "int too large to convert to float")
  | sf => Ok (SF2Prim sf)
  end.

Definition py_float (x : num) : result float :=
  match x with
  | PyInt z => float_of_pyint z
  | PyFloat f => Ok f
  end.

(** [x * y] and [x + y]: exact on two ints; as soon as one operand is a float
    the other is converted and the operation is the binary64 one. *)
Definition py_mul (x y : num) : result num :=
  match x, y with
  | PyInt a, PyInt b => Ok (PyInt (a * b))
  | _, _ => a <- py_float x ;; b <- py_float y ;; Ok (PyFloat (a * b))
  end.

Definition py_add (x y : num) : result num :=
  match x, y with
  | PyInt a, PyInt b => Ok (PyInt (a + b))
  | _, _ => a <- py_float x ;; b <- py_float y ;; Ok (PyFloat (a + b))
  end.

(** [math.sqrt] on a float: a negative argument (minus infinity included) is
    a domain error; a NaN goes through. *)
Definition math_sqrt (f : float) : result float :=
  if (f <? 0)%float then Raise (ValueError "math domain error")
  else Ok (PrimFloat.sqrt f).

(** ** The functions of the chapter *)

(** [def square(x): return x * x] *)
Definition square (x : num) : result num := py_mul x x.

(** [def hypot(x, y): return math.sqrt(x * x + y * y)] *)
Definition hypot (x y : num) : result float :=
  xx <- py_mul x x ;;
  yy <- py_mul y y ;;
  s <- py_add xx yy ;;
  f <- py_float s ;;
  math_sqrt f.

(** [def primes5(): return (2, 3, 5, 7, 11)]; the tuple of ints is a list. *)
Definition primes5 (_ : unit) : list Z := [2; 3; 5; 7; 11]%Z.

(** ** Standard output *)

Inductive NoneType : Type := PyNone.

Module IO.

(** A computation that prints: it extends the text on standard output and
    returns a value or raises. *)
Definition io (A : Type) : Type := string -> result A * string.

Definition ret {A : Type} (a : A) : io A := fun out => (Ok a, out).

Definition lift {A : Type} (r : result A) : io A := fun out => (r, out).

Definition seq {A B : Type} (m : io A) (k : A -> io B) : io B :=
  fun out =>
    match m out with
    | (Ok a, out') => k a out'
    | (Raise e, out') => (Raise e, out')
    end.

Definition newline : string := String "010"%char EmptyString.

(** [print(s)]: the text and a newline. *)
Definition print (s : string) : io NoneType :=
  fun out => (Ok PyNone, (out ++ s ++ newline)%string).

End IO.

Notation "x <~ m ;; k" := (IO.seq m (fun x => k))
  (at level 61, m at next level, right associativity).

(** [def greeting(): print("Hello World!")]; a body that ends without
    [return] gives [None]. *)
Definition greeting : IO.io NoneType :=
  _ <~ IO.print "Hello World!" ;;
  IO.ret PyNone.

(** ** The module [vectools] *)

Module vectools.

Local Open Scope float_scope.

(** Two's complement wrap-around of a 64-bit integer. *)
Definition wrap64 (z : Z) : Z := ((z + 2 ^ 63) mod 2 ^ 64 - 2 ^ 63)%Z.

Definition int64 (z : Z) : Prop := (- 2 ^ 63 <= z < 2 ^ 63)%Z.

(** A one-dimensional numpy array, of the integer dtype numpy gives a list
    of Python ints ([int64]) or of the dtype it gives a list of floats
    ([float64]). *)
Inductive ndarray : Type :=
| Int64Array (l : list Z)
| Float64Array (l : list float).

Definition wf (x : ndarray) : Prop :=
  match x with
  | Int64Array l => Forall int64 l
  | Float64Array _ => True
  end.

(** A scalar taken out of an array. *)
Inductive scalar : Type :=
| NpInt64 (z : Z)
| NpFloat64 (f : float).

(** [x ** 2], element by element: numpy squares by one multiplication, and
    an [int64] product wraps. *)
Definition pow2 (x : ndarray) : ndarray :=
  match x with
  | Int64Array l => Int64Array (map (fun v => wrap64 (v * v)) l)
  | Float64Array l => Float64Array (map (fun v => v * v) l)
  end.

(** The builtin [sum(a)]: from the int [0], one addition per element, left
    to right.  [0 + numpy.int64] is a [numpy.int64] and the additions wrap;
    [0 + numpy.float64] is the float addition to [0.0].  On an empty array
    the result is the int [0], which [math.sqrt] reads as [NpInt64 0] and
    [NpFloat64 0] alike. *)
Definition sum (a : ndarray) : scalar :=
  match a with
  | Int64Array l => NpInt64 (fold_left (fun acc v => wrap64 (acc + v)) l 0%Z)
  | Float64Array l => NpFloat64 (fold_left (fun acc v => acc + v) l 0)
  end.

(** [__float__] of a numpy scalar: the C cast, which never fails. *)
Definition float_of_scalar (s : scalar) : float :=
  match s with
  | NpInt64 z => Float64.of_Z z
  | NpFloat64 f => f
  end.

(** [def norm(x): return math.sqrt(sum(x ** 2))] *)
Definition norm (x : ndarray) : result float :=
  math_sqrt (float_of_scalar (sum (pow2 x))).

Definition as_floats (x : ndarray) : list float :=
  match x with
  | Int64Array l => map Float64.of_Z l
  | Float64Array l => l
  end.

(** [x / d] for a float [d]: true division, the result is a float64 array. *)
Definition divide (x : ndarray) (d : float) : ndarray :=
  Float64Array (map (fun v => v / d) (as_floats x)).

Definition zero_length_msg : string := "Can't normalise vector with length 0".

(** [[
    def unitvector(x):
        xnorm = norm(x)
        if xnorm == 0:
            raise ValueError("Can't normalise vector with length 0")
        return x / norm(x)
    ]] *)
Definition unitvector (x : ndarray) : result ndarray :=
  xnorm <- norm x ;;
  if xnorm =? 0 then Raise (ValueError zero_length_msg)
  else n <- norm x ;; Ok (divide x n).

(** The text [str] gives for an array and for a float is numpy's and
    Python's formatting, taken as parameters. *)
Section Module_body.

Variable str_array : ndarray -> string.
Variable str_float : float -> string.

(** The block under [if __name__ == "__main__":]. *)
Definition demo : IO.io NoneType :=
  let x1 := Int64Array [0; 1; 2]%Z in
  n <~ IO.lift (norm x1) ;;
  _ <~ IO.print ("The norm of " ++ str_array x1 ++ " is "
                  ++ str_float n ++ ".")%string ;;
  u <~ IO.lift (unitvector x1) ;;
  IO.print ("The unitvector in direction of " ++ str_array x1 ++ " is "
             ++ str_array u ++ ".")%string.

(** Running the file's top level with [__name__] bound to [name]: the
    imports and the two [def]s print nothing; then the guarded block. *)
Definition exec (name : string) : IO.io NoneType :=
  if String.eqb name "__main__" then demo else IO.ret PyNone.

(** [python3 vectools.py] binds [__name__] to ["__main__"];
    [import vectools] binds it to the module's name. *)
Definition run_as_script : IO.io NoneType := exec "__main__".
Definition import_module : IO.io NoneType := exec "vectools".

End Module_body.

End vectools.


(** ** Signs of binary64 numbers *)

(** A float that is not below zero: a zero, a NaN, or a positive number or
    infinity. *)
Definition sf_nonneg (x : spec_float) : bool :=
  match x with
  | S754_infinity s | S754_finite s _ _ => negb s
  | S754_zero _ | S754_nan => true
  end.

Definition nonneg (f : float) : bool := sf_nonneg (Prim2SF f).

(** The sign of a rounded result is the sign asked for, unless it is a NaN. *)
Definition sf_signed (s : bool) (x : spec_float) : bool :=
  match x with
  | S754_zero s' | S754_infinity s' | S754_finite s' _ _ => Bool.eqb s' s
  | S754_nan => true
  end.

(** ** What the text says the functions compute

    The readings below follow the words of the text, not the code: sums of
    squares of integers are exact, and the square root and the float sums are
    the binary64 ones. *)

Module Spec.

Local Open Scope float_scope.

Definition sum_of_squares (l : list Z) : Z :=
  fold_right (fun v acc => v * v + acc)%Z 0%Z l.

Definition float_sum_of_squares (l : list float) : float :=
  fold_left (fun acc v => acc + v * v) l 0.

(** The Euclidean norm: the square root of the sum of the squares. *)
Definition euclidean_norm (x : vectools.ndarray) : float :=
  match x with
  | vectools.Int64Array l => PrimFloat.sqrt (Float64.of_Z (sum_of_squares l))
  | vectools.Float64Array l => PrimFloat.sqrt (float_sum_of_squares l)
  end.

(** The square root of x squared plus y squared. *)
Definition hypotenuse (x y : num) : float :=
  match x, y with
  | PyInt a, PyInt b => PrimFloat.sqrt (Float64.of_Z (a ^ 2 + b ^ 2))
  | PyInt a, PyFloat b => PrimFloat.sqrt (Float64.of_Z (a ^ 2) + b * b)
  | PyFloat a, PyInt b => PrimFloat.sqrt (a * a + Float64.of_Z (b ^ 2))
  | PyFloat a, PyFloat b => PrimFloat.sqrt (a * a + b * b)
  end.

(** [d] is within [eps] of the rational [q]. *)
Definition approx (f : float) (q eps : Q) : Prop :=
  match Float64.to_Q f with
  | Some v => (Qabs (v - q) < eps)%Q
  | None => False
  end.

End Spec.

(** ** Ranges on which the conversions and the 64-bit arithmetic are exact *)

(** [float(z)] is finite. *)
Definition converts (z : Z) : bool :=
  match Float64.of_Z_sf z with
  | S754_infinity _ => false
  | _ => true
  end.

(** Every int that [hypot x y] has to turn into a float converts. *)
Definition hypot_converts (x y : num) : bool :=
  match x, y with
  | PyInt a, PyInt b => converts (a * a + b * b)
  | PyInt a, PyFloat _ => converts (a * a)
  | PyFloat _, PyInt b => converts (b * b)
  | PyFloat _, PyFloat _ => true
  end.

(** The squares of an [int64] array and their sum stay below [2 ^ 63]. *)
Definition no_wrap (x : vectools.ndarray) : Prop :=
  match x with
  | vectools.Int64Array l => (Spec.sum_of_squares l < 2 ^ 63)%Z
  | vectools.Float64Array _ => True
  end.

(** The unit vector of the text: every component, as a float, divided by the
    Euclidean norm. *)
Definition x_over_magnitude (x : vectools.ndarray) : list float :=
  match x with
  | vectools.Int64Array l =>
      List.map (fun v => (Float64.of_Z v / Spec.euclidean_norm x)%float) l
  | vectools.Float64Array l =>
      List.map (fun v => (v / Spec.euclidean_norm x)%float) l
  end.

(** The sum [norm] takes the square root of is not negative: always so for
    floats, and for [int64] unless the wrap-around made it so. *)
Definition sqrt_defined (x : vectools.ndarray) : Prop :=
  match vectools.sum (vectools.pow2 x) with
  | vectools.NpInt64 z => (0 <= z)%Z
  | vectools.NpFloat64 _ => True
  end.

(** ** The other functions of the chapter

    A Python [str] is a Rocq [string], one character per code point (code
    points below 256); [upper] and [lower] are Python's on ASCII text. *)

Module Str.

(** [len(s)] *)
Definition len (s : string) : Z := Z.of_nat (String.length s).

Fixpoint repeat_nat (n : nat) (s : string) : string :=
  match n with
  | O => EmptyString
  | S k => (s ++ repeat_nat k s)%string
  end.

(** The largest index, [sys.maxsize]. *)
Definition ssize_max : Z := (2 ^ 63 - 1)%Z.

(** An int that fits the index type. *)
Definition fits_index (n : Z) : bool :=
  ((- 2 ^ 63 <=? n) && (n <=? ssize_max))%Z.

(** [n * s] for an int [n].  The count has to fit an index, or the product
    raises [OverflowError]; a count below one gives the empty string; the
    result may not be longer than [sys.maxsize]; otherwise it is [n] copies
    of [s]. *)
Definition repeat (n : Z) (s : string) : result string :=
  if negb (fits_index n)
  then Raise (OverflowError "cannot fit 'int' into an index-sized integer")
  else if (n <? 1)%Z then Ok EmptyString
  else if (n =? 1)%Z then Ok s
  else if (ssize_max / n <? len s)%Z
  then Raise (OverflowError "repeated string is too long")
  else Ok (repeat_nat (Z.to_nat n) s).

Fixpoint map (f : ascii -> ascii) (s : string) : string :=
  match s with
  | EmptyString => EmptyString
  | String c r => String (f c) (map f r)
  end.

Definition upper_char (c : ascii) : ascii :=
  let n := nat_of_ascii c in
  if ((97 <=? n) && (n <=? 122))%nat then ascii_of_nat (n - 32) else c.

Definition lower_char (c : ascii) : ascii :=
  let n := nat_of_ascii c in
  if ((65 <=? n) && (n <=? 90))%nat then ascii_of_nat (n + 32) else c.

(** [s.upper()] and [s.lower()] *)
Definition upper (s : string) : string := map upper_char s.
Definition lower (s : string) : string := map lower_char s.

Fixpoint is_ascii (s : string) : bool :=
  match s with
  | EmptyString => true
  | String c r => (nat_of_ascii c <? 128)%nat && is_ascii r
  end.

(** Every character of [s] is [c]. *)
Fixpoint all_chars (c : ascii) (s : string) : bool :=
  match s with
  | EmptyString => true
  | String d r => Ascii.eqb d c && all_chars c r
  end.

(** ["%d" % z] *)
Definition format_d (z : Z) : string := NilZero.string_of_int (Z.to_int z).

End Str.

(** [print(s, end=e)] *)
Definition print_end (s e : string) : IO.io NoneType :=
  fun out => (Ok PyNone, (out ++ s ++ e)%string).

(** [for x in l: body(x)] over a tuple. *)
Fixpoint for_each {A : Type} (l : list A) (body : A -> IO.io NoneType)
  : IO.io NoneType :=
  match l with
  | [] => IO.ret PyNone
  | x :: r => _ <~ body x ;; for_each r body
  end.

(** [def printpluses(n): print(n * "+")] *)
Definition printpluses (n : Z) : IO.io NoneType :=
  pluses <~ IO.lift (Str.repeat n "+") ;;
  _ <~ IO.print pluses ;;
  IO.ret PyNone.

(** [def upperAndLower(string): return string.upper(), string.lower()] *)
Definition upperAndLower (string : String.string)
  : String.string * String.string :=
  (Str.upper string, Str.lower string).

(** [def returnstars(n): return n * '*'] *)
Definition returnstars (n : Z) : result string := Str.repeat n "*".

(** [[
    def print_centred_in_stars(string):
        linelength = 46
        starstring = returnstars((linelength - len(string)) // 2)
        print(starstring + string + starstring)
    ]] *)
Definition print_centred_in_stars (string : String.string)
  : IO.io NoneType :=
  let linelength := 46%Z in
  starstring <~ IO.lift (returnstars ((linelength - Str.len string) / 2)) ;;
  _ <~ IO.print (starstring ++ string ++ starstring)%string ;;
  IO.ret PyNone.

(** The three versions of the program that prints the first five primes. *)

(** The loop [for p in primes5(): print("%d" % p, end=' ')]. *)
Definition print_primes : IO.io NoneType :=
  for_each (primes5 tt) (fun p => print_end (Str.format_d p) " ").

(** The loop at the top level of the file. *)
Module primes_plain.

Definition exec (name : string) : IO.io NoneType := print_primes.

End primes_plain.

(** The loop under [if __name__=="__main__":]. *)
Module primes_guarded.

Definition exec (name : string) : IO.io NoneType :=
  if String.eqb name "__main__" then print_primes else IO.ret PyNone.

End primes_guarded.

(** The loop in [def main()], called under [if __name__=="__main__":]. *)
Module primes_main.

Definition main : IO.io NoneType :=
  _ <~ print_primes ;;
  IO.ret PyNone.

Definition exec (name : string) : IO.io NoneType :=
  if String.eqb name "__main__" then main else IO.ret PyNone.

End primes_main.

(** ** Vocabulary of the further properties *)

(** [-x] on a number and on an array ([int64] negation wraps). *)
Definition py_neg (x : num) : num :=
  match x with
  | PyInt a => PyInt (- a)
  | PyFloat a => PyFloat (- a)
  end.

Definition np_negative (x : vectools.ndarray) : vectools.ndarray :=
  match x with
  | vectools.Int64Array l =>
      vectools.Int64Array (List.map (fun v => vectools.wrap64 (- v)) l)
  | vectools.Float64Array l =>
      vectools.Float64Array (List.map (fun v => (- v)%float) l)
  end.

(** Every component is zero (either zero, for a float). *)
Definition all_zero (x : vectools.ndarray) : Prop :=
  match x with
  | vectools.Int64Array l => Forall (fun v => v = 0%Z) l
  | vectools.Float64Array l => Forall (fun v => (v =? 0)%float = true) l
  end.

(** Some component is a NaN. *)
Definition has_nan (x : vectools.ndarray) : Prop :=
  match x with
  | vectools.Int64Array _ => False
  | vectools.Float64Array l => Exists (fun v => PrimFloat.is_nan v = true) l
  end.

(** A number that is not below zero. *)
Definition not_negative (x : num) : Prop :=
  match x with
  | PyInt a => (0 <= a)%Z
  | PyFloat a => (a <? 0)%float = false
  end.

(** * Proofs *)

(** ** Signs of binary64 results *)

Lemma binary_round_aux_signed (s : bool) (m e : Z) (l : location) :
  sf_signed s (binary_round_aux prec emax s m e l) = true.
Proof.
  unfold binary_round_aux.
  destruct (shr_fexp prec emax m e l) as [mrs' e'].
  destruct (shr_fexp prec emax _ e' loc_Exact) as [mrs'' e''].
  destruct (shr_m mrs''); [ | destruct (Z.leb e'' _) | ]; simpl;
    auto using Bool.eqb_reflx.
Qed.

Lemma binary_round_signed (s : bool) (m : positive) (e : Z) :
  sf_signed s (binary_round prec emax s m e) = true.
Proof.
  unfold binary_round.
  destruct (shl_align m e _) as [mz ez].
  apply binary_round_aux_signed.
Qed.

Lemma sf_signed_false_nonneg (x : spec_float) :
  sf_signed false x = true -> sf_nonneg x = true.
Proof.
  destruct x as [s | s | | s m e]; simpl; auto; destruct s; auto.
Qed.

Lemma binary_normalize_nonneg (z e : Z) :
  (0 <= z)%Z -> sf_nonneg (binary_normalize prec emax z e false) = true.
Proof.
  intros Hz. destruct z as [ | p | p ]; simpl.
  - reflexivity.
  - apply sf_signed_false_nonneg, binary_round_signed.
  - lia.
Qed.

Lemma SFmul_self_nonneg (x : spec_float) :
  sf_nonneg (SFmul prec emax x x) = true.
Proof.
  destruct x as [s | s | | s m e]; simpl; auto.
  - now rewrite Bool.xorb_nilpotent.
  - apply sf_signed_false_nonneg.
    rewrite Bool.xorb_nilpotent. apply binary_round_aux_signed.
Qed.

Lemma SFadd_nonneg (x y : spec_float) :
  sf_nonneg x = true -> sf_nonneg y = true ->
  sf_nonneg (SFadd prec emax x y) = true.
Proof.
  destruct x as [sx | sx | | sx mx ex], y as [sy | sy | | sy my ey];
    simpl; intros Hx Hy; auto;
    try (destruct sx; try discriminate);
    try (destruct sy; try discriminate); auto.
  apply binary_normalize_nonneg. simpl. lia.
Qed.

Lemma SFltb_nonneg_zero (x : spec_float) :
  sf_nonneg x = true -> SFltb x (S754_zero false) = false.
Proof.
  destruct x as [s | s | | s m e]; simpl; auto; destruct s; auto; discriminate.
Qed.

Lemma mul_self_nonneg (f : float) : nonneg (f * f) = true.
Proof.
  unfold nonneg. rewrite mul_spec. apply SFmul_self_nonneg.
Qed.

Lemma add_nonneg (f g : float) :
  nonneg f = true -> nonneg g = true -> nonneg (f + g) = true.
Proof.
  unfold nonneg. rewrite add_spec. apply SFadd_nonneg.
Qed.

Lemma nonneg_not_below_zero (f : float) :
  nonneg f = true -> (f <? 0)%float = false.
Proof.
  unfold nonneg. intros H. rewrite ltb_spec.
  change (Prim2SF 0) with (S754_zero false).
  now apply SFltb_nonneg_zero.
Qed.

Lemma SFldexp_nonneg (x : spec_float) (e : Z) :
  sf_nonneg x = true -> sf_nonneg (SFldexp prec emax x e) = true.
Proof.
  destruct x as [s | s | | s m ex]; simpl; auto.
  destruct s; [ discriminate | intros _ ].
  apply sf_signed_false_nonneg, binary_round_signed.
Qed.

Lemma SF2Prim_nonneg (x : spec_float) :
  sf_nonneg x = true -> nonneg (SF2Prim x) = true.
Proof.
  destruct x as [s | s | | s m e]; simpl.
  - destruct s; reflexivity.
  - destruct s; [ discriminate | reflexivity ].
  - reflexivity.
  - destruct s; [ discriminate | intros _ ].
    unfold nonneg. rewrite Z_ldexp_spec. apply SFldexp_nonneg.
    rewrite of_uint63_spec. apply binary_normalize_nonneg.
    apply Uint63.to_Z_bounded.
Qed.

Lemma of_Z_nonneg (z : Z) : (0 <= z)%Z -> nonneg (Float64.of_Z z) = true.
Proof.
  intros Hz. apply SF2Prim_nonneg, binary_normalize_nonneg, Hz.
Qed.

Lemma float_of_pyint_Ok (z : Z) (f : float) :
  float_of_pyint z = Ok f -> f = Float64.of_Z z.
Proof.
  unfold float_of_pyint, Float64.of_Z.
  destruct (Float64.of_Z_sf z); intros H; now inversion H.
Qed.

Lemma float_of_pyint_nonneg (z : Z) (f : float) :
  (0 <= z)%Z -> float_of_pyint z = Ok f -> nonneg f = true.
Proof.
  intros Hz H. apply float_of_pyint_Ok in H. subst f. now apply of_Z_nonneg.
Qed.

Lemma math_sqrt_nonneg (f : float) :
  nonneg f = true -> math_sqrt f = Ok (PrimFloat.sqrt f).
Proof.
  intros H. unfold math_sqrt. now rewrite nonneg_not_below_zero.
Qed.

(** ** [primes5] *)

Lemma small_prime (p : Z) :
  (1 < p <= 11)%Z ->
  (forall n, In n [2; 3; 5; 7]%Z -> (n < p)%Z -> (p mod n <> 0)%Z) ->
  prime p.
Proof.
  intros Hp Hmod. apply prime_alt. split; [ lia | ].
  intros n Hn Hdiv.
  assert (Hcases : (n = 2 \/ n = 3 \/ n = 4 \/ n = 5 \/ n = 6 \/ n = 7
                    \/ n = 8 \/ n = 9 \/ n = 10)%Z) by lia.
  assert (H2 : (2 < p -> p mod 2 <> 0)%Z) by (intros; apply Hmod; simpl; auto).
  assert (H3 : (3 < p -> p mod 3 <> 0)%Z) by (intros; apply Hmod; simpl; auto).
  assert (H5 : (5 < p -> p mod 5 <> 0)%Z) by (intros; apply Hmod; simpl; auto).
  assert (H7 : (7 < p -> p mod 7 <> 0)%Z) by (intros; apply Hmod; simpl; auto).
  destruct Hdiv as [k Hk].
  assert (Hk' : (0 < k < p)%Z) by nia.
  repeat (destruct Hcases as [-> | Hcases]); try subst n;
    try (assert (Hm : (p mod 2 = 0)%Z)
           by (apply Z.mod_divide; [ lia | exists (k * 1)%Z; lia ]); lia);
    try (assert (Hm : (p mod 2 = 0)%Z)
           by (apply Z.mod_divide; [ lia | exists (k * 2)%Z; lia ]); lia);
    try (assert (Hm : (p mod 2 = 0)%Z)
           by (apply Z.mod_divide; [ lia | exists (k * 3)%Z; lia ]); lia);
    try (assert (Hm : (p mod 2 = 0)%Z)
           by (apply Z.mod_divide; [ lia | exists (k * 4)%Z; lia ]); lia);
    try (assert (Hm : (p mod 2 = 0)%Z)
           by (apply Z.mod_divide; [ lia | exists (k * 5)%Z; lia ]); lia);
    try (assert (Hm : (p mod 3 = 0)%Z)
           by (apply Z.mod_divide; [ lia | exists (k * 1)%Z; lia ]); lia);
    try (assert (Hm : (p mod 3 = 0)%Z)
           by (apply Z.mod_divide; [ lia | exists (k * 3)%Z; lia ]); lia);
    try (assert (Hm : (p mod 5 = 0)%Z)
           by (apply Z.mod_divide; [ lia | exists k; lia ]); lia);
    try (assert (Hm : (p mod 7 = 0)%Z)
           by (apply Z.mod_divide; [ lia | exists k; lia ]); lia).
Qed.

Lemma composite_not_prime (p a b : Z) :
  (1 < a < p)%Z -> (p = b * a)%Z -> ~ prime p.
Proof.
  intros Ha Hp Hprime. apply prime_alt in Hprime.
  destruct Hprime as [_ Hnd]. apply (Hnd a Ha). now exists b.
Qed.

(** C4: [primes5] takes no argument and returns, at every call, the tuple
    (2, 3, 5, 7, 11): five numbers in increasing order, which are exactly the
    primes up to 11, that is, the first five primes. *)
Theorem primes5_first_five_primes :
  (forall u : unit, primes5 u = [2; 3; 5; 7; 11]%Z)
  /\ List.length (primes5 tt) = 5%nat
  /\ StronglySorted Z.lt (primes5 tt)
  /\ (forall p : Z, In p (primes5 tt) <-> prime p /\ (p <= 11)%Z).
Proof.
  split; [ reflexivity | ].
  split; [ reflexivity | ].
  split.
  - unfold primes5.
    repeat (constructor; [ | repeat (constructor; try lia) ]). constructor.
  - intros p. unfold primes5. simpl. split.
    + intros H.
      repeat (destruct H as [<- | H]); try contradiction;
        (split; [ | lia ]); apply small_prime; try lia;
        intros n Hn Hlt; simpl in Hn;
        repeat (destruct Hn as [<- | Hn]); try contradiction; try lia;
        vm_compute; discriminate.
    + intros [Hprime Hle].
      assert (Hge : (1 < p)%Z) by (destruct Hprime; assumption).
      assert (Hcases : (p = 2 \/ p = 3 \/ p = 4 \/ p = 5 \/ p = 6 \/ p = 7
                        \/ p = 8 \/ p = 9 \/ p = 10 \/ p = 11)%Z) by lia.
      repeat (destruct Hcases as [-> | Hcases]); try subst p; auto 10;
        exfalso.
      * apply (@composite_not_prime 4 2 2)%Z; auto; lia.
      * apply (@composite_not_prime 6 2 3)%Z; auto; lia.
      * apply (@composite_not_prime 8 2 4)%Z; auto; lia.
      * apply (@composite_not_prime 9 3 3)%Z; auto; lia.
      * apply (@composite_not_prime 10 2 5)%Z; auto; lia.
Qed.

(** ** [square] *)

Lemma py_mul_self (x : num) :
  py_mul x x =
  Ok match x with
     | PyInt a => PyInt (a * a)
     | PyFloat a => PyFloat (a * a)
     end.
Proof.
  destruct x; reflexivity.
Qed.

(** C5: [square(x)] returns [x * x] for every number [x], the exact product
    for an int and the binary64 product for a float; [square(3)] is [9]. *)
Theorem square_is_x_times_x :
  (forall x : num, square x = py_mul x x /\ returns (square x))
  /\ (forall z : Z, square (PyInt z) = Ok (PyInt (z * z)))
  /\ (forall f : float, square (PyFloat f) = Ok (PyFloat (f * f)))
  /\ square (PyInt 3) = Ok (PyInt 9).
Proof.
  repeat split. unfold square. rewrite py_mul_self. eexists. reflexivity.
Qed.

(** ** [greeting] *)

(** C9: [greeting()] appends the line "Hello World!" to standard output,
    does nothing else, and returns [None]. *)
Theorem greeting_prints_and_returns_None :
  forall out : string,
    greeting out = (Ok PyNone, (out ++ "Hello World!" ++ IO.newline)%string).
Proof.
  intros out. reflexivity.
Qed.

(** ** [hypot] *)

Lemma SFadd_comm (x y : spec_float) :
  SFadd prec emax x y = SFadd prec emax y x.
Proof.
  destruct x as [sx | sx | | sx mx ex], y as [sy | sy | | sy my ey];
    simpl; try reflexivity;
    try (destruct sx, sy; reflexivity).
  now rewrite Z.min_comm, Z.add_comm.
Qed.

Lemma float_add_comm (f g : float) : (f + g = g + f)%float.
Proof.
  apply Prim2SF_inj. rewrite !add_spec. apply SFadd_comm.
Qed.

Lemma float_of_pyint_converts (z : Z) :
  converts z = true -> float_of_pyint z = Ok (Float64.of_Z z).
Proof.
  unfold converts, float_of_pyint, Float64.of_Z.
  destruct (Float64.of_Z_sf z); intros H; try reflexivity; discriminate.
Qed.

Lemma square_Z_nonneg (a : Z) : (0 <= a * a)%Z.
Proof. nia. Qed.

(** The largest int that converts is the one just below
    [2 ** 1024 - 2 ** 970], which would round to [2 ** 1024]. *)
Example converts_threshold :
  converts (2 ^ 1024 - 2 ^ 970 - 1) = true
  /\ converts (2 ^ 1024 - 2 ^ 970) = false
  /\ converts (- (2 ^ 1024 - 2 ^ 970 - 1)) = true
  /\ converts (10 ^ 400) = false.
Proof.
  repeat split; vm_compute; reflexivity.
Qed.

(** C10: [hypot] does not depend on the order of its two arguments: the two
    calls return the same float, or raise the same error. *)
Theorem hypot_comm :
  forall x y : num, hypot x y = hypot y x.
Proof.
  intros x y. unfold hypot. rewrite !py_mul_self.
  destruct x as [a | a], y as [b | b]; simpl.
  - now rewrite Z.add_comm.
  - destruct (float_of_pyint (a * a)) as [f | e]; simpl;
      [ now rewrite float_add_comm | reflexivity ].
  - destruct (float_of_pyint (b * b)) as [f | e]; simpl;
      [ now rewrite float_add_comm | reflexivity ].
  - now rewrite float_add_comm.
Qed.

Lemma float_of_pyint_overflows (z : Z) :
  converts z = false ->
  float_of_pyint z = Raise (OverflowError "int too large to convert to float").
Proof.
  unfold converts, float_of_pyint.
  destruct (Float64.of_Z_sf z); intros H; try reflexivity; discriminate.
Qed.

(** C6, as the code has it: whenever the ints that have to become floats
    convert (two floats always do), [hypot(x, y)] returns the binary64 square
    root of x squared plus y squared; when one does not, it raises
    [OverflowError]. *)
Theorem hypot_is_sqrt_of_squares :
  forall x y : num,
    (hypot_converts x y = true -> hypot x y = Ok (Spec.hypotenuse x y))
    /\ (hypot_converts x y = false ->
        hypot x y = Raise (OverflowError "int too large to convert to float")).
Proof.
  intros x y. unfold hypot. rewrite !py_mul_self. split.
  - destruct x as [a | a], y as [b | b];
      cbn [hypot_converts Spec.hypotenuse py_add py_float bind]; intros Hc;
      rewrite ?Z.pow_2_r, ?(float_of_pyint_converts _ Hc);
      cbn [bind py_float]; apply math_sqrt_nonneg.
    + apply of_Z_nonneg.
      pose proof (square_Z_nonneg a). pose proof (square_Z_nonneg b). lia.
    + apply add_nonneg;
        [ apply of_Z_nonneg, square_Z_nonneg | apply mul_self_nonneg ].
    + apply add_nonneg;
        [ apply mul_self_nonneg | apply of_Z_nonneg, square_Z_nonneg ].
    + apply add_nonneg; apply mul_self_nonneg.
  - destruct x as [a | a], y as [b | b];
      cbn [hypot_converts py_add py_float bind]; intros Hc;
      try discriminate;
      now rewrite (float_of_pyint_overflows _ Hc).
Qed.

(** [hypot(3, 4)] is the square root of 25. *)
Lemma hypot_is_sqrt_of_squares_witness :
  hypot_converts (PyInt 3) (PyInt 4) = true
  /\ hypot (PyInt 3) (PyInt 4) = Ok (Spec.hypotenuse (PyInt 3) (PyInt 4)).
Proof.
  split; [ reflexivity | ].
  apply (proj1 (@hypot_is_sqrt_of_squares (PyInt 3) (PyInt 4))). reflexivity.
Defined.

Example hypot_3_4 :
  hypot (PyInt 3) (PyInt 4) = Ok 5%float
  /\ hypot (PyFloat 3) (PyInt 4) = Ok 5%float
  /\ hypot (PyFloat 3) (PyFloat 4) = Ok 5%float.
Proof.
  repeat split; vm_compute; reflexivity.
Qed.

(** C6, as stated, fails on a large int: [hypot(10 ** 200, 0)] raises
    [OverflowError] where the text promises a square root. *)
Lemma hypot_large_int_raises :
  hypot (PyInt (10 ^ 200)) (PyInt 0)
  = Raise (OverflowError "int too large to convert to float")
  /\ hypot (PyInt (10 ^ 200)) (PyInt 0)
     <> Ok (Spec.hypotenuse (PyInt (10 ^ 200)) (PyInt 0)).
Proof.
  assert (H : hypot (PyInt (10 ^ 200)) (PyInt 0)
              = Raise (OverflowError "int too large to convert to float"))
    by (vm_compute; reflexivity).
  split; [ exact H | rewrite H; discriminate ].
Qed.

(** ** [vectools.norm] *)

Lemma fold_left_add_nonneg (l : list float) :
  Forall (fun v => nonneg v = true) l ->
  forall acc, nonneg acc = true ->
  nonneg (fold_left (fun a v => a + v)%float l acc) = true.
Proof.
  induction 1 as [ | v l Hv _ IH ]; simpl; intros acc Hacc.
  - exact Hacc.
  - apply IH. now apply add_nonneg.
Qed.

Lemma squares_nonneg (l : list float) :
  Forall (fun v => nonneg v = true) (map (fun v => v * v)%float l).
Proof.
  induction l as [ | v l IH ]; simpl; constructor;
    [ apply mul_self_nonneg | exact IH ].
Qed.

Lemma fold_left_add_map (f : float -> float) (l : list float) :
  forall acc,
    fold_left (fun a v => a + v)%float (map f l) acc
    = fold_left (fun a v => a + f v)%float l acc.
Proof.
  induction l as [ | v l IH ]; simpl; intros acc; [ reflexivity | apply IH ].
Qed.

Lemma wrap64_small (z : Z) : vectools.int64 z -> vectools.wrap64 z = z.
Proof.
  unfold vectools.int64, vectools.wrap64. intros Hz.
  rewrite Z.mod_small; lia.
Qed.

Lemma sum_of_squares_nonneg (l : list Z) : (0 <= Spec.sum_of_squares l)%Z.
Proof.
  induction l as [ | v l IH ]; simpl; [ lia | ].
  pose proof (square_Z_nonneg v). lia.
Qed.

(** Below [2 ^ 63] the wrapped squares and the wrapped running sum are the
    exact ones. *)
Lemma wrapped_sum_exact (l : list Z) :
  forall acc,
    (0 <= acc)%Z ->
    (acc + Spec.sum_of_squares l < 2 ^ 63)%Z ->
    fold_left (fun a v => vectools.wrap64 (a + v))
      (map (fun v => vectools.wrap64 (v * v)) l) acc
    = (acc + Spec.sum_of_squares l)%Z.
Proof.
  induction l as [ | v l IH ]; simpl; intros acc Hacc Hlt; [ lia | ].
  pose proof (square_Z_nonneg v) as Hv.
  pose proof (sum_of_squares_nonneg l) as Hl.
  rewrite (@wrap64_small (v * v)) by (unfold vectools.int64; lia).
  rewrite (@wrap64_small (acc + v * v)) by (unfold vectools.int64; lia).
  rewrite IH; lia.
Qed.

(** When the sum under the square root is not negative, [norm] returns. *)
Lemma norm_returns (x : vectools.ndarray) :
  sqrt_defined x ->
  vectools.norm x
  = Ok (PrimFloat.sqrt (vectools.float_of_scalar (vectools.sum (vectools.pow2 x)))).
Proof.
  unfold sqrt_defined, vectools.norm. intros H. apply math_sqrt_nonneg.
  destruct x as [l | l]; simpl in *.
  - now apply of_Z_nonneg.
  - apply fold_left_add_nonneg; [ apply squares_nonneg | reflexivity ].
Qed.

Lemma no_wrap_sqrt_defined (x : vectools.ndarray) :
  no_wrap x -> sqrt_defined x.
Proof.
  destruct x as [l | l]; unfold no_wrap, sqrt_defined; simpl; auto.
  intros H. rewrite wrapped_sum_exact; try lia.
  pose proof (sum_of_squares_nonneg l). lia.
Qed.

(** On every float64 vector, and on every int64 vector whose exact sum of
    squares is below [2 ^ 63], [norm] is the Euclidean norm. *)
Lemma norm_is_euclidean_norm (x : vectools.ndarray) :
  no_wrap x -> vectools.norm x = Ok (Spec.euclidean_norm x).
Proof.
  intros H. rewrite norm_returns by now apply no_wrap_sqrt_defined.
  destruct x as [l | l]; simpl in *.
  - rewrite wrapped_sum_exact; try lia.
    pose proof (sum_of_squares_nonneg l). reflexivity.
  - unfold Spec.float_sum_of_squares. now rewrite fold_left_add_map.
Qed.

(** C2, at a vector where the code departs from the text: the square of
    [2 ** 32] wraps to [0] in an int64 array, so [norm] returns [0.0] for a
    vector whose Euclidean norm is [4294967296.0]. *)
Theorem norm_wraps_on_int64 :
  vectools.wf (vectools.Int64Array [2 ^ 32]%Z)
  /\ vectools.norm (vectools.Int64Array [2 ^ 32]%Z) = Ok 0%float
  /\ Spec.euclidean_norm (vectools.Int64Array [2 ^ 32]%Z)
     = Float64.of_Z (2 ^ 32)
  /\ vectools.norm (vectools.Int64Array [2 ^ 32]%Z)
     <> Ok (Spec.euclidean_norm (vectools.Int64Array [2 ^ 32]%Z)).
Proof.
  split; [ | split; [ | split ] ].
  - repeat constructor; unfold vectools.int64; lia.
  - vm_compute. reflexivity.
  - vm_compute. reflexivity.
  - intros H.
    apply (f_equal (fun r => match r with
                             | Ok f => (f =? 0)%float
                             | Raise _ => false
                             end)) in H.
    vm_compute in H. discriminate.
Qed.

(** ** [vectools.unitvector] *)

(** The outcome of [unitvector] once [norm] has returned. *)
Lemma unitvector_after_norm (x : vectools.ndarray) (n : float) :
  vectools.norm x = Ok n ->
  vectools.unitvector x
  = if (n =? 0)%float then Raise (ValueError vectools.zero_length_msg)
    else Ok (vectools.divide x n).
Proof.
  intros H. unfold vectools.unitvector. rewrite H. simpl.
  destruct (n =? 0)%float; reflexivity.
Qed.

Lemma unitvector_norm_raises (x : vectools.ndarray) (e : exn) :
  vectools.norm x = Raise e -> vectools.unitvector x = Raise e.
Proof.
  intros H. unfold vectools.unitvector. now rewrite H.
Qed.

(** Whatever the vector, [unitvector] raises its own error exactly when
    [norm] returns zero, and returns when [norm] returns anything else. *)
Lemma unitvector_zero_length_iff (x : vectools.ndarray) :
  (vectools.unitvector x = Raise (ValueError vectools.zero_length_msg)
   <-> exists n, vectools.norm x = Ok n /\ (n =? 0)%float = true)
  /\ (forall n, vectools.norm x = Ok n -> (n =? 0)%float = false ->
      returns (vectools.unitvector x)).
Proof.
  split; [ split | ].
  - destruct (vectools.norm x) as [n | e] eqn:En.
    + rewrite (unitvector_after_norm _ En).
      destruct (n =? 0)%float eqn:E0; [ intros _; now exists n | discriminate ].
    + rewrite (unitvector_norm_raises _ En). intros H.
      unfold vectools.norm, math_sqrt in En.
      destruct (_ <? 0)%float; [ | discriminate ].
      inversion En; subst e. inversion H.
  - intros [n [En E0]]. rewrite (unitvector_after_norm _ En). now rewrite E0.
  - intros n En E0. rewrite (unitvector_after_norm _ En). rewrite E0.
    now exists (vectools.divide x n).
Qed.

(** Where the square root is defined (every float64 vector, and every int64
    vector whose wrapped sum of squares is not negative), [unitvector] raises
    a [ValueError] exactly when [norm] returns zero. *)
Lemma unitvector_raises_iff_norm_zero (x : vectools.ndarray) :
  sqrt_defined x ->
  returns (vectools.norm x)
  /\ (is_value_error (vectools.unitvector x)
      <-> exists n, vectools.norm x = Ok n /\ (n =? 0)%float = true).
Proof.
  intros Hd. pose proof (norm_returns _ Hd) as En.
  split; [ eexists; exact En | ].
  rewrite (unitvector_after_norm _ En). split.
  - intros [msg Hmsg]. eexists. split; [ exact En | ].
    destruct (_ =? 0)%float; [ reflexivity | discriminate ].
  - intros [n [En' E0]]. rewrite En in En'. inversion En'; subst n.
    rewrite E0. now exists vectools.zero_length_msg.
Qed.

(** C1, at vectors where the code departs from the text.  The square of
    [3037000500] wraps to a negative int64, [math.sqrt] rejects it, and
    [unitvector] raises a [ValueError] although [norm] did not return zero
    (it did not return at all) and the vector is not of length zero.  The
    square of [2 ** 32] wraps to zero, and [unitvector] reports a vector of
    length 0 for a vector of length [4294967296]. *)
Theorem unitvector_raises_on_wrapped_int64 :
  vectools.wf (vectools.Int64Array [3037000500]%Z)
  /\ vectools.sum (vectools.pow2 (vectools.Int64Array [3037000500]%Z))
     = vectools.NpInt64 (-9223372036709301616)
  /\ vectools.norm (vectools.Int64Array [3037000500]%Z)
     = Raise (ValueError "math domain error")
  /\ vectools.unitvector (vectools.Int64Array [3037000500]%Z)
     = Raise (ValueError "math domain error")
  /\ is_value_error (vectools.unitvector (vectools.Int64Array [3037000500]%Z))
  /\ ~ (exists n, vectools.norm (vectools.Int64Array [3037000500]%Z) = Ok n
                  /\ (n =? 0)%float = true)
  /\ vectools.wf (vectools.Int64Array [2 ^ 32]%Z)
  /\ vectools.unitvector (vectools.Int64Array [2 ^ 32]%Z)
     = Raise (ValueError "Can't normalise vector with length 0").
Proof.
  assert (En : vectools.norm (vectools.Int64Array [3037000500]%Z)
               = Raise (ValueError "math domain error"))
    by (vm_compute; reflexivity).
  repeat match goal with |- _ /\ _ => split end.
  - repeat constructor; unfold vectools.int64; lia.
  - vm_compute. reflexivity.
  - exact En.
  - now apply unitvector_norm_raises.
  - exists "math domain error"%string. now apply unitvector_norm_raises.
  - intros [n [Hn _]]. rewrite En in Hn. discriminate.
  - repeat constructor; unfold vectools.int64; lia.
  - vm_compute. reflexivity.
Qed.

(** C3, at vectors where the code departs from the text.  The vector
    [2 ** 32] has magnitude [4294967296.0] and unit vector [1.0], but its
    square wraps to zero and [unitvector] reports a vector of length 0.  The
    vector [3037000500] has unit vector [1.0] too, but its square wraps to a
    negative number and [unitvector] raises the error of [math.sqrt].  For
    three components [3000000000] the squares fit and their sum wraps: [norm]
    returns a nonzero value that is not the magnitude, and [unitvector]
    returns three components above 1 where the unit vector has three
    components below 1.  On floats a square can underflow: [2 ** -600] is
    not zero, and [unitvector] reports a vector of length 0. *)
Theorem unitvector_not_x_over_magnitude :
  (vectools.wf (vectools.Int64Array [2 ^ 32]%Z)
   /\ x_over_magnitude (vectools.Int64Array [2 ^ 32]%Z) = [1%float]
   /\ vectools.unitvector (vectools.Int64Array [2 ^ 32]%Z)
      = Raise (ValueError "Can't normalise vector with length 0"))
  /\ (vectools.wf (vectools.Int64Array [3037000500]%Z)
      /\ x_over_magnitude (vectools.Int64Array [3037000500]%Z) = [1%float]
      /\ vectools.unitvector (vectools.Int64Array [3037000500]%Z)
         = Raise (ValueError "math domain error"))
  /\ (vectools.wf
        (vectools.Int64Array [3000000000; 3000000000; 3000000000]%Z)
      /\ exists n u w : float,
           vectools.norm
             (vectools.Int64Array [3000000000; 3000000000; 3000000000]%Z)
           = Ok n
           /\ (n =? 0)%float = false
           /\ vectools.unitvector
                (vectools.Int64Array [3000000000; 3000000000; 3000000000]%Z)
              = Ok (vectools.Float64Array [u; u; u])
           /\ (1 <? u)%float = true
           /\ x_over_magnitude
                (vectools.Int64Array [3000000000; 3000000000; 3000000000]%Z)
              = [w; w; w]
           /\ (w <? 1)%float = true)
  /\ ((0x1p-600 =? 0)%float = false
      /\ vectools.unitvector (vectools.Float64Array [0x1p-600%float])
         = Raise (ValueError "Can't normalise vector with length 0")).
Proof.
  split; [ | split; [ | split ] ].
  - split; [ repeat constructor; unfold vectools.int64; lia | ].
    split; vm_compute; reflexivity.
  - split; [ repeat constructor; unfold vectools.int64; lia | ].
    split; vm_compute; reflexivity.
  - split; [ repeat constructor; unfold vectools.int64; lia | ].
    exists (PrimFloat.sqrt (Float64.of_Z 8553255926290448384)),
           (Float64.of_Z 3000000000
            / PrimFloat.sqrt (Float64.of_Z 8553255926290448384))%float,
           (Float64.of_Z 3000000000
            / PrimFloat.sqrt (Float64.of_Z 27000000000000000000))%float.
    repeat split; vm_compute; reflexivity.
  - split; vm_compute; reflexivity.
Qed.

(** Where nothing wraps (every float64 vector, and every int64 vector whose
    exact sum of squares is below [2 ** 63]) and the Euclidean norm is not
    zero, [unitvector(x)] returns the float64 array of the components
    divided by the Euclidean norm. *)
Theorem unitvector_is_x_over_magnitude :
  forall x : vectools.ndarray,
    no_wrap x ->
    (Spec.euclidean_norm x =? 0)%float = false ->
    vectools.unitvector x = Ok (vectools.Float64Array (x_over_magnitude x)).
Proof.
  intros x Hw Hnz.
  assert (En : vectools.norm x = Ok (Spec.euclidean_norm x)).
  { rewrite norm_returns by now apply no_wrap_sqrt_defined.
    destruct x as [l | l]; simpl in *.
    - rewrite wrapped_sum_exact; try lia.
      pose proof (sum_of_squares_nonneg l). reflexivity.
    - unfold Spec.float_sum_of_squares. now rewrite fold_left_add_map. }
  rewrite (unitvector_after_norm _ En), Hnz.
  unfold vectools.divide, x_over_magnitude.
  destruct x as [l | l]; cbn [vectools.as_floats];
    [ now rewrite map_map | reflexivity ].
Qed.

Lemma unitvector_is_x_over_magnitude_witness :
  no_wrap (vectools.Int64Array [0; 1; 2]%Z)
  /\ (Spec.euclidean_norm (vectools.Int64Array [0; 1; 2]%Z) =? 0)%float = false
  /\ vectools.unitvector (vectools.Int64Array [0; 1; 2]%Z)
     = Ok (vectools.Float64Array
             (x_over_magnitude (vectools.Int64Array [0; 1; 2]%Z))).
Proof.
  assert (Hw : no_wrap (vectools.Int64Array [0; 1; 2]%Z))
    by (unfold no_wrap; simpl; lia).
  assert (Hnz : (Spec.euclidean_norm (vectools.Int64Array [0; 1; 2]%Z) =? 0)%float
                = false) by (vm_compute; reflexivity).
  split; [ exact Hw | split; [ exact Hnz | ] ].
  apply (@unitvector_is_x_over_magnitude
           (vectools.Int64Array [0; 1; 2]%Z) Hw Hnz).
Defined.

(** C7: the norm of the int vector (0, 1, 2) is the float
    5035177455121576 / 2 ^ 51 = 2.23606797749979, which is within 0.0005 of
    2.236 and whose square is within 10 ^ -15 of 5. *)
Theorem norm_0_1_2 :
  exists r : float,
    vectools.norm (vectools.Int64Array [0; 1; 2]%Z) = Ok r
    /\ r = PrimFloat.sqrt 5
    /\ Float64.to_Q r = Some (5035177455121576 # 2251799813685248)
    /\ Spec.approx r (2236 # 1000) (1 # 2000)
    /\ Spec.approx (r * r)%float 5 (1 # 1000000000000000).
Proof.
  exists (PrimFloat.sqrt 5).
  repeat split; vm_compute; reflexivity.
Qed.

(** ** The module's guarded block *)

Lemma string_length_append (s t : string) :
  String.length (s ++ t) = (String.length s + String.length t)%nat.
Proof.
  induction s as [ | c s IH ]; simpl; [ reflexivity | now rewrite IH ].
Qed.

Lemma demo_output (str_array : vectools.ndarray -> string)
      (str_float : float -> string) (out : string) :
  exists (n : float) (u : vectools.ndarray),
    vectools.norm (vectools.Int64Array [0; 1; 2]%Z) = Ok n
    /\ vectools.unitvector (vectools.Int64Array [0; 1; 2]%Z) = Ok u
    /\ vectools.demo str_array str_float out
       = (Ok PyNone,
          ((out
            ++ ("The norm of "
                ++ str_array (vectools.Int64Array [0; 1; 2]%Z)
                ++ " is " ++ str_float n ++ ".")
            ++ IO.newline)
           ++ ("The unitvector in direction of "
               ++ str_array (vectools.Int64Array [0; 1; 2]%Z)
               ++ " is " ++ str_array u ++ ".")
           ++ IO.newline)%string).
Proof.
  assert (En : vectools.norm (vectools.Int64Array [0; 1; 2]%Z)
               = Ok (PrimFloat.sqrt 5)) by (vm_compute; reflexivity).
  pose proof (unitvector_after_norm _ En) as Eu.
  replace (PrimFloat.sqrt 5 =? 0)%float with false in Eu
    by (vm_compute; reflexivity).
  exists (PrimFloat.sqrt 5),
         (vectools.divide (vectools.Int64Array [0; 1; 2]%Z) (PrimFloat.sqrt 5)).
  split; [ exact En | split; [ exact Eu | ] ].
  unfold vectools.demo, IO.seq, IO.lift, IO.print.
  rewrite En, Eu. reflexivity.
Qed.

(** C8: the module's demonstration block runs exactly when [__name__] is
    ["__main__"].  Under any other name, the name an import gives included,
    executing the file prints nothing; run as a script it prints the two
    lines of the block. *)
Theorem demo_runs_only_as_main :
  forall (str_array : vectools.ndarray -> string)
         (str_float : float -> string),
    (forall (name out : string),
        snd (vectools.exec str_array str_float name out) = out
        <-> name <> "__main__"%string)
    /\ (forall out : string,
           vectools.import_module str_array str_float out = (Ok PyNone, out))
    /\ (forall out : string,
           vectools.run_as_script str_array str_float out
           = vectools.demo str_array str_float out
           /\ exists (n : float) (u : vectools.ndarray),
               vectools.norm (vectools.Int64Array [0; 1; 2]%Z) = Ok n
               /\ vectools.unitvector (vectools.Int64Array [0; 1; 2]%Z) = Ok u
               /\ vectools.run_as_script str_array str_float out
                  = (Ok PyNone,
                     ((out
                       ++ ("The norm of "
                           ++ str_array (vectools.Int64Array [0; 1; 2]%Z)
                           ++ " is " ++ str_float n ++ ".")
                       ++ IO.newline)
                      ++ ("The unitvector in direction of "
                          ++ str_array (vectools.Int64Array [0; 1; 2]%Z)
                          ++ " is " ++ str_array u ++ ".")
                      ++ IO.newline)%string)).
Proof.
  intros str_array str_float. split; [ | split ].
  - intros name out. unfold vectools.exec.
    destruct (String.eqb name "__main__") eqn:E.
    + apply String.eqb_eq in E. split; [ | intros H; now elim H ].
      destruct (demo_output str_array str_float out) as [n [u [_ [_ Hd]]]].
      rewrite Hd. simpl. intros H.
      apply (f_equal String.length) in H.
      rewrite !string_length_append in H. simpl in H. lia.
    + apply String.eqb_neq in E. split; [ intros _; exact E | reflexivity ].
  - intros out. reflexivity.
  - intros out. split; [ reflexivity | ].
    destruct (demo_output str_array str_float out) as [n [u [En [Eu Hd]]]].
    exists n, u. auto.
Qed.

(** * Further properties of the code *)

(** ** More on binary64 arithmetic *)

Lemma SFsqrt_nonneg (x : spec_float) :
  sf_nonneg (SFsqrt prec emax x) = true.
Proof.
  destruct x as [s | s | | s m e]; simpl; try reflexivity.
  - destruct s; reflexivity.
  - destruct s; [ reflexivity | ].
    destruct (SFsqrt_core_binary prec emax (Z.pos m) e) as [[mz ez] lz].
    apply sf_signed_false_nonneg, binary_round_aux_signed.
Qed.

Lemma sqrt_not_below_zero (f : float) : (PrimFloat.sqrt f <? 0)%float = false.
Proof.
  apply nonneg_not_below_zero. unfold nonneg.
  rewrite sqrt_spec. apply SFsqrt_nonneg.
Qed.

Lemma math_sqrt_Ok (f r : float) :
  math_sqrt f = Ok r -> r = PrimFloat.sqrt f.
Proof.
  unfold math_sqrt. destruct (f <? 0)%float; intros H; now inversion H.
Qed.

Lemma is_nan_eq (f : float) : PrimFloat.is_nan f = true -> f = nan.
Proof.
  intros H. apply Prim2SF_inj. unfold Prim2SF at 1. now rewrite H.
Qed.

Lemma float_add_nan_r (f : float) : (f + nan = nan)%float.
Proof.
  apply Prim2SF_inj. rewrite add_spec.
  change (Prim2SF nan) with S754_nan.
  destruct (Prim2SF f); reflexivity.
Qed.

Lemma float_add_nan_l (f : float) : (nan + f = nan)%float.
Proof.
  rewrite float_add_comm. apply float_add_nan_r.
Qed.

Lemma float_div_nan_r (f : float) : (f / nan = nan)%float.
Proof.
  apply Prim2SF_inj. rewrite div_spec.
  change (Prim2SF nan) with S754_nan.
  destruct (Prim2SF f); reflexivity.
Qed.

Lemma SFmul_opp_opp (x : spec_float) :
  SFmul prec emax (SFopp x) (SFopp x) = SFmul prec emax x x.
Proof.
  destruct x as [s | s | | s m e]; simpl; try reflexivity;
    destruct s; reflexivity.
Qed.

Lemma float_mul_opp_opp (f : float) : ((- f) * (- f) = f * f)%float.
Proof.
  apply Prim2SF_inj. rewrite !mul_spec, opp_spec. apply SFmul_opp_opp.
Qed.

Lemma float_eqb_zero (f : float) :
  (f =? 0)%float = true -> exists s, Prim2SF f = S754_zero s.
Proof.
  rewrite eqb_spec. change (Prim2SF 0) with (S754_zero false).
  destruct (Prim2SF f) as [s | s | | s m e]; simpl.
  - intros _. now exists s.
  - destruct s; discriminate.
  - discriminate.
  - destruct s; discriminate.
Qed.

Lemma float_square_of_zero (f : float) :
  (f =? 0)%float = true -> (f * f = 0)%float.
Proof.
  intros H. destruct (float_eqb_zero H) as [s Hs].
  apply Prim2SF_inj. rewrite mul_spec, Hs.
  destruct s; reflexivity.
Qed.

Lemma wrap64_mod (z : Z) :
  (vectools.wrap64 z mod 2 ^ 64 = z mod 2 ^ 64)%Z.
Proof.
  unfold vectools.wrap64.
  rewrite Zminus_mod_idemp_l. f_equal. lia.
Qed.

Lemma wrap64_congr (a b : Z) :
  (a mod 2 ^ 64 = b mod 2 ^ 64)%Z -> vectools.wrap64 a = vectools.wrap64 b.
Proof.
  unfold vectools.wrap64. intros H.
  rewrite <- (Zplus_mod_idemp_l a), <- (Zplus_mod_idemp_l b), H. reflexivity.
Qed.

Lemma wrap64_square_neg (v : Z) :
  vectools.wrap64 (vectools.wrap64 (- v) * vectools.wrap64 (- v))
  = vectools.wrap64 (v * v).
Proof.
  apply wrap64_congr.
  rewrite Zmult_mod, !wrap64_mod, <- Zmult_mod. f_equal. lia.
Qed.

(** ** More on [vectools] *)

(** The vector of the demonstration has an exact sum of squares of 5. *)
Lemma norm_is_euclidean_norm_witness :
  no_wrap (vectools.Int64Array [0; 1; 2]%Z)
  /\ vectools.norm (vectools.Int64Array [0; 1; 2]%Z)
     = Ok (Spec.euclidean_norm (vectools.Int64Array [0; 1; 2]%Z)).
Proof.
  assert (H : no_wrap (vectools.Int64Array [0; 1; 2]%Z))
    by (unfold no_wrap; simpl; lia).
  split; [ exact H | ].
  apply (@norm_is_euclidean_norm (vectools.Int64Array [0; 1; 2]%Z) H).
Defined.

Lemma unitvector_raises_iff_norm_zero_witness :
  sqrt_defined (vectools.Float64Array [3; 4]%float)
  /\ returns (vectools.norm (vectools.Float64Array [3; 4]%float))
  /\ (is_value_error (vectools.unitvector (vectools.Float64Array [3; 4]%float))
      <-> exists n,
            vectools.norm (vectools.Float64Array [3; 4]%float) = Ok n
            /\ (n =? 0)%float = true).
Proof.
  assert (H : sqrt_defined (vectools.Float64Array [3; 4]%float)) by exact I.
  split; [ exact H | ].
  apply (@unitvector_raises_iff_norm_zero
           (vectools.Float64Array [3; 4]%float) H).
Defined.

(** On a float64 vector [norm] always returns, and whatever the vector, a
    value [norm] returns is never below zero: it is zero, positive, plus
    infinity or a NaN. *)
Theorem norm_result_not_negative :
  (forall l : list float, returns (vectools.norm (vectools.Float64Array l)))
  /\ (forall (x : vectools.ndarray) (r : float),
         vectools.norm x = Ok r -> (r <? 0)%float = false).
Proof.
  split.
  - intros l. eexists.
    apply (@norm_returns (vectools.Float64Array l)). exact I.
  - intros x r H. unfold vectools.norm in H.
    apply math_sqrt_Ok in H. subst r. apply sqrt_not_below_zero.
Qed.

Lemma fold_left_add_nan (l : list float) :
  fold_left (fun a v => a + v)%float l nan = nan.
Proof.
  induction l as [ | v l IH ]; simpl; [ reflexivity | ].
  now rewrite float_add_nan_l.
Qed.

Lemma sum_of_squares_with_nan (l : list float) :
  Exists (fun v => PrimFloat.is_nan v = true) l ->
  forall acc,
    fold_left (fun a v => a + v)%float (List.map (fun v => v * v)%float l) acc
    = nan.
Proof.
  induction 1 as [ v l Hv | v l _ IH ]; simpl; intros acc.
  - apply is_nan_eq in Hv. subst v.
    change (nan * nan)%float with nan.
    rewrite float_add_nan_r. apply fold_left_add_nan.
  - apply IH.
Qed.

(** A NaN among the components of a float64 vector is not an error: [norm]
    returns a NaN, and [unitvector] returns a vector of NaNs as long as its
    argument. *)
Theorem nan_component_propagates :
  forall x : vectools.ndarray,
    has_nan x ->
    vectools.norm x = Ok nan
    /\ vectools.unitvector x
       = Ok (vectools.Float64Array
               (List.map (fun _ => nan) (vectools.as_floats x))).
Proof.
  intros [l | l] H; [ contradiction | ].
  assert (En : vectools.norm (vectools.Float64Array l) = Ok nan).
  { unfold vectools.norm. simpl.
    rewrite (sum_of_squares_with_nan H). reflexivity. }
  split; [ exact En | ].
  rewrite (unitvector_after_norm _ En).
  change (nan =? 0)%float with false. cbv iota.
  unfold vectools.divide. simpl. do 2 f_equal.
  apply map_ext. intros v. apply float_div_nan_r.
Qed.

Lemma nan_component_propagates_witness :
  has_nan (vectools.Float64Array [1%float; nan])
  /\ vectools.norm (vectools.Float64Array [1%float; nan]) = Ok nan
  /\ vectools.unitvector (vectools.Float64Array [1%float; nan])
     = Ok (vectools.Float64Array
             (List.map (fun _ => nan)
                (vectools.as_floats (vectools.Float64Array [1%float; nan])))).
Proof.
  assert (H : has_nan (vectools.Float64Array [1%float; nan]))
    by (apply Exists_cons_tl, Exists_cons_hd; reflexivity).
  split; [ exact H | ].
  apply (@nan_component_propagates (vectools.Float64Array [1%float; nan]) H).
Defined.

Lemma wrapped_sum_of_zeros (l : list Z) :
  Forall (fun v => v = 0%Z) l ->
  fold_left (fun a v => vectools.wrap64 (a + v))
    (List.map (fun v => vectools.wrap64 (v * v)) l) 0%Z = 0%Z.
Proof.
  induction 1 as [ | v l Hv _ IH ]; simpl; [ reflexivity | ].
  subst v. exact IH.
Qed.

Lemma float_sum_of_zeros (l : list float) :
  Forall (fun v => (v =? 0)%float = true) l ->
  fold_left (fun a v => a + v)%float (List.map (fun v => v * v)%float l) 0%float
  = 0%float.
Proof.
  induction 1 as [ | v l Hv _ IH ]; simpl; [ reflexivity | ].
  rewrite (float_square_of_zero Hv). exact IH.
Qed.

(** A vector whose components are all zero, the empty vector included, has
    norm [0.0], and [unitvector] refuses it with its own [ValueError]. *)
Theorem zero_vector_is_refused :
  forall x : vectools.ndarray,
    all_zero x ->
    vectools.norm x = Ok 0%float
    /\ vectools.unitvector x = Raise (ValueError vectools.zero_length_msg).
Proof.
  intros x H.
  assert (En : vectools.norm x = Ok 0%float).
  { unfold vectools.norm. destruct x as [l | l]; simpl in *.
    - rewrite (wrapped_sum_of_zeros H). reflexivity.
    - rewrite (float_sum_of_zeros H). reflexivity. }
  split; [ exact En | ].
  rewrite (unitvector_after_norm _ En). reflexivity.
Qed.

Lemma zero_vector_is_refused_witness :
  all_zero (vectools.Float64Array [0%float; neg_zero])
  /\ vectools.norm (vectools.Float64Array [0%float; neg_zero]) = Ok 0%float
  /\ vectools.unitvector (vectools.Float64Array [0%float; neg_zero])
     = Raise (ValueError vectools.zero_length_msg).
Proof.
  assert (H : all_zero (vectools.Float64Array [0%float; neg_zero]))
    by (repeat constructor).
  split; [ exact H | ].
  apply (@zero_vector_is_refused (vectools.Float64Array [0%float; neg_zero]) H).
Defined.

(** [norm] does not see the signs of the components: [norm(-x)] has the
    outcome of [norm(x)], for float64 and, wrap-around included, for int64. *)
Theorem norm_of_negated_vector :
  forall x : vectools.ndarray,
    vectools.norm (np_negative x) = vectools.norm x.
Proof.
  intros x. unfold vectools.norm. do 3 f_equal.
  destruct x as [l | l]; simpl; f_equal; rewrite map_map; apply map_ext;
    intros v.
  - apply wrap64_square_neg.
  - apply float_mul_opp_opp.
Qed.

(** ** More on [square] and [hypot] *)

Lemma py_mul_self_neg (x : num) : py_mul (py_neg x) (py_neg x) = py_mul x x.
Proof.
  rewrite !py_mul_self. destruct x as [a | a]; simpl.
  - now rewrite Z.mul_opp_opp.
  - now rewrite float_mul_opp_opp.
Qed.

(** [square] always returns; its result is never below zero (it may be a
    NaN), and it is the same for [x] and [-x]. *)
Theorem square_even_and_not_negative :
  forall x : num,
    square (py_neg x) = square x
    /\ exists r : num, square x = Ok r /\ not_negative r.
Proof.
  intros x. split; [ apply py_mul_self_neg | ].
  unfold square. rewrite py_mul_self. eexists. split; [ reflexivity | ].
  destruct x as [a | a]; simpl.
  - apply square_Z_nonneg.
  - apply nonneg_not_below_zero, mul_self_nonneg.
Qed.

(** The only error [hypot] raises is [OverflowError]: never a [ValueError]
    from the square root; and a value it returns is never below zero. *)
Theorem hypot_no_domain_error :
  forall x y : num,
    ~ is_value_error (hypot x y)
    /\ forall r : float, hypot x y = Ok r -> (r <? 0)%float = false.
Proof.
  intros x y.
  assert (H : (exists f, hypot x y = Ok (PrimFloat.sqrt f))
              \/ (exists msg, hypot x y = Raise (OverflowError msg))).
  { unfold hypot. rewrite !py_mul_self.
    destruct x as [a | a], y as [b | b]; cbn [py_add py_float bind].
    - destruct (float_of_pyint (a * a + b * b)) as [f | e] eqn:E;
        cbn [bind].
      + left. exists f. apply math_sqrt_nonneg.
        apply (float_of_pyint_nonneg (z := (a * a + b * b)%Z)); [ | exact E ].
        pose proof (square_Z_nonneg a). pose proof (square_Z_nonneg b). lia.
      + right. unfold float_of_pyint in E.
        destruct (Float64.of_Z_sf _); inversion E. eexists. reflexivity.
    - destruct (float_of_pyint (a * a)) as [f | e] eqn:E; cbn [bind].
      + left. eexists. apply math_sqrt_nonneg, add_nonneg.
        * apply (float_of_pyint_nonneg (z := (a * a)%Z));
            [ apply square_Z_nonneg | exact E ].
        * apply mul_self_nonneg.
      + right. unfold float_of_pyint in E.
        destruct (Float64.of_Z_sf _); inversion E. eexists. reflexivity.
    - destruct (float_of_pyint (b * b)) as [f | e] eqn:E; cbn [bind].
      + left. eexists. apply math_sqrt_nonneg, add_nonneg.
        * apply mul_self_nonneg.
        * apply (float_of_pyint_nonneg (z := (b * b)%Z));
            [ apply square_Z_nonneg | exact E ].
      + right. unfold float_of_pyint in E.
        destruct (Float64.of_Z_sf _); inversion E. eexists. reflexivity.
    - left. eexists. apply math_sqrt_nonneg, add_nonneg; apply mul_self_nonneg. }
  destruct H as [[f Hf] | [msg Hmsg]].
  - rewrite Hf. split.
    + intros [m Hm]. discriminate.
    + intros r Hr. inversion Hr. apply sqrt_not_below_zero.
  - rewrite Hmsg. split.
    + intros [m Hm]. discriminate.
    + intros r Hr. discriminate.
Qed.

(** [hypot] does not see the signs of its arguments. *)
Theorem hypot_of_negated_arguments :
  forall x y : num,
    hypot (py_neg x) y = hypot x y
    /\ hypot x (py_neg y) = hypot x y.
Proof.
  intros x y. unfold hypot. now rewrite !py_mul_self_neg.
Qed.

(** ** The string functions *)

Lemma string_append_assoc (a b c : string) :
  ((a ++ b) ++ c = a ++ b ++ c)%string.
Proof.
  induction a as [ | x a IH ]; simpl; [ reflexivity | now rewrite IH ].
Qed.

Lemma string_append_empty_r (a : string) : (a ++ EmptyString)%string = a.
Proof.
  induction a as [ | x a IH ]; simpl; [ reflexivity | now rewrite IH ].
Qed.

Lemma repeat_nat_length (n : nat) (s : string) :
  String.length (Str.repeat_nat n s) = (n * String.length s)%nat.
Proof.
  induction n as [ | n IH ]; simpl; [ reflexivity | ].
  now rewrite string_length_append, IH.
Qed.

Lemma repeat_nat_add (m n : nat) (s : string) :
  Str.repeat_nat (m + n) s
  = (Str.repeat_nat m s ++ Str.repeat_nat n s)%string.
Proof.
  induction m as [ | m IH ]; simpl; [ reflexivity | ].
  now rewrite IH, string_append_assoc.
Qed.

Lemma repeat_nat_all_chars (n : nat) (c : ascii) :
  Str.all_chars c (Str.repeat_nat n (String c EmptyString)) = true.
Proof.
  induction n as [ | k IH ]; simpl; [ reflexivity | ].
  now rewrite Ascii.eqb_refl, IH.
Qed.

(** A one-character string times a count that fits an index. *)
Lemma repeat_char_fits (n : Z) (c : ascii) :
  Str.fits_index n = true ->
  Str.repeat n (String c EmptyString)
  = Ok (Str.repeat_nat (Z.to_nat n) (String c EmptyString)).
Proof.
  unfold Str.repeat, Str.fits_index, Str.ssize_max. intros H.
  rewrite H. cbn [negb].
  apply andb_prop in H. destruct H as [Hlo Hhi].
  apply Z.leb_le in Hlo. apply Z.leb_le in Hhi.
  destruct (n <? 1)%Z eqn:E1.
  - apply Z.ltb_lt in E1. replace (Z.to_nat n) with 0%nat by lia. reflexivity.
  - apply Z.ltb_ge in E1.
    destruct (n =? 1)%Z eqn:E2.
    + apply Z.eqb_eq in E2. subst n. reflexivity.
    + assert (Hq : (1 <= (2 ^ 63 - 1) / n)%Z)
        by (apply Z.div_le_lower_bound; lia).
      replace ((2 ^ 63 - 1) / n <? Str.len (String c EmptyString))%Z
        with false; [ reflexivity | ].
      symmetry. apply Z.ltb_ge.
      change (Str.len (String c EmptyString)) with 1%Z. exact Hq.
Qed.

Lemma repeat_overflows (n : Z) (s : string) :
  Str.fits_index n = false ->
  Str.repeat n s
  = Raise (OverflowError "cannot fit 'int' into an index-sized integer").
Proof.
  unfold Str.repeat. now intros ->.
Qed.

Lemma repeat_char_len (n : Z) (c : ascii) :
  Str.len (Str.repeat_nat (Z.to_nat n) (String c EmptyString)) = Z.max 0 n.
Proof.
  unfold Str.len. rewrite repeat_nat_length. simpl. lia.
Qed.

(** For a count that fits a 64-bit index, [returnstars(n)] is a run of stars
    and nothing else, [n] of them, and the empty string exactly when [n] is
    zero or negative; for any other count it raises [OverflowError]. *)
Theorem returnstars_is_a_run_of_stars :
  forall n : Z,
    (Str.fits_index n = true ->
     exists stars : string,
       returnstars n = Ok stars
       /\ Str.len stars = Z.max 0 n
       /\ Str.all_chars "*" stars = true
       /\ (stars = EmptyString <-> (n <= 0)%Z))
    /\ (Str.fits_index n = false ->
        returnstars n
        = Raise (OverflowError "cannot fit 'int' into an index-sized integer")).
Proof.
  intros n. split; [ | apply repeat_overflows ].
  intros Hfit. exists (Str.repeat_nat (Z.to_nat n) "*").
  pose proof (repeat_char_len n "*") as Hl.
  split; [ now apply repeat_char_fits | ].
  split; [ exact Hl | split; [ apply repeat_nat_all_chars | ] ].
  split.
  - intros H. rewrite H in Hl. unfold Str.len in Hl. simpl in Hl. lia.
  - intros H. replace (Z.to_nat n) with 0%nat by lia. reflexivity.
Qed.

(** Runs of stars add up, for counts that are not negative and whose sum
    still fits an index. *)
Theorem returnstars_add :
  forall m n : Z,
    (0 <= m)%Z -> (0 <= n)%Z -> (m + n <= Str.ssize_max)%Z ->
    exists a b : string,
      returnstars m = Ok a
      /\ returnstars n = Ok b
      /\ returnstars (m + n) = Ok (a ++ b)%string.
Proof.
  intros m n Hm Hn Hs. unfold Str.ssize_max in Hs.
  assert (Hfit : forall k, (0 <= k <= m + n)%Z -> Str.fits_index k = true).
  { intros k Hk. unfold Str.fits_index, Str.ssize_max.
    apply andb_true_intro. split; apply Z.leb_le; lia. }
  exists (Str.repeat_nat (Z.to_nat m) "*"), (Str.repeat_nat (Z.to_nat n) "*").
  unfold returnstars. rewrite !repeat_char_fits by (apply Hfit; lia).
  repeat split. f_equal.
  rewrite Z2Nat.inj_add by assumption. apply repeat_nat_add.
Qed.

Lemma returnstars_add_witness :
  (0 <= 2)%Z /\ (0 <= 3)%Z /\ (2 + 3 <= Str.ssize_max)%Z
  /\ exists a b : string,
       returnstars 2 = Ok a
       /\ returnstars 3 = Ok b
       /\ returnstars (2 + 3) = Ok (a ++ b)%string.
Proof.
  assert (H2 : (0 <= 2)%Z) by lia.
  assert (H3 : (0 <= 3)%Z) by lia.
  assert (H5 : (2 + 3 <= Str.ssize_max)%Z) by (vm_compute; discriminate).
  split; [ exact H2 | split; [ exact H3 | split; [ exact H5 | ] ] ].
  apply (@returnstars_add 2 3 H2 H3 H5).
Defined.

(** For a count that fits a 64-bit index, [printpluses(n)] prints one line
    made of [n] plus signs, an empty line when [n] is zero or negative, and
    returns [None]; for any other count it raises [OverflowError] and prints
    nothing. *)
Theorem printpluses_prints_one_line :
  forall (n : Z) (out : string),
    (Str.fits_index n = true ->
     exists line : string,
       printpluses n out = (Ok PyNone, (out ++ line ++ IO.newline)%string)
       /\ Str.len line = Z.max 0 n
       /\ Str.all_chars "+" line = true)
    /\ (Str.fits_index n = false ->
        printpluses n out
        = (Raise (OverflowError "cannot fit 'int' into an index-sized integer"),
           out)).
Proof.
  intros n out. unfold printpluses, IO.seq, IO.lift. split; intros Hfit.
  - exists (Str.repeat_nat (Z.to_nat n) "+").
    rewrite (@repeat_char_fits n "+"%char Hfit).
    split; [ reflexivity | ].
    split; [ apply repeat_char_len | apply repeat_nat_all_chars ].
  - now rewrite (@repeat_overflows n "+" Hfit).
Qed.

(** For a string Python can hold (at most [sys.maxsize] characters),
    [print_centred_in_stars(s)] prints one line, [s] between two equal runs
    of stars.  For a string of at most 46 characters the line is 46 wide
    when the length of [s] is even and 45 wide when it is odd; a string of 45
    characters or more is printed as it is. *)
Theorem print_centred_width :
  forall (s out : string),
    (Str.len s <= Str.ssize_max)%Z ->
    exists line stars : string,
      print_centred_in_stars s out
      = (Ok PyNone, (out ++ line ++ IO.newline)%string)
      /\ returnstars ((46 - Str.len s) / 2) = Ok stars
      /\ line = (stars ++ s ++ stars)%string
      /\ ((Str.len s <= 46)%Z ->
          Str.len line = (46 - Str.len s mod 2)%Z)
      /\ ((45 <= Str.len s)%Z -> line = s).
Proof.
  intros s out Hs. unfold Str.ssize_max in Hs.
  set (k := ((46 - Str.len s) / 2)%Z).
  assert (Hlen : (0 <= Str.len s)%Z) by (unfold Str.len; lia).
  pose proof (Z.div_mod (46 - Str.len s) 2 ltac:(lia)) as Hd.
  pose proof (Z.mod_pos_bound (46 - Str.len s) 2 ltac:(lia)) as Hb.
  fold k in Hd.
  assert (Hfit : Str.fits_index k = true).
  { unfold Str.fits_index, Str.ssize_max.
    apply andb_true_intro. split; apply Z.leb_le; lia. }
  pose proof (@repeat_char_fits k "*"%char Hfit) as Hstars.
  fold (returnstars k) in Hstars.
  exists (Str.repeat_nat (Z.to_nat k) "*" ++ s
          ++ Str.repeat_nat (Z.to_nat k) "*")%string,
         (Str.repeat_nat (Z.to_nat k) "*").
  split; [ | split; [ exact Hstars | split; [ reflexivity | split ] ] ].
  - unfold print_centred_in_stars, IO.seq, IO.lift. fold k.
    rewrite Hstars. reflexivity.
  - intros Hle.
    pose proof (repeat_char_len k "*") as Hl.
    unfold Str.len in *. rewrite !string_length_append.
    rewrite !Nat2Z.inj_add. rewrite Hl.
    set (L := Z.of_nat (String.length s)) in *.
    pose proof (Z.div_mod L 2 ltac:(lia)) as Hd'.
    pose proof (Z.mod_pos_bound L 2 ltac:(lia)) as Hb'.
    lia.
  - intros Hge.
    replace (Z.to_nat k) with 0%nat by lia.
    simpl. apply string_append_empty_r.
Qed.

Lemma print_centred_width_witness :
  (Str.len "Hello world!" <= Str.ssize_max)%Z
  /\ exists line stars : string,
       print_centred_in_stars "Hello world!" EmptyString
       = (Ok PyNone, (EmptyString ++ line ++ IO.newline)%string)
       /\ returnstars ((46 - Str.len "Hello world!") / 2) = Ok stars
       /\ line = (stars ++ "Hello world!" ++ stars)%string
       /\ ((Str.len "Hello world!" <= 46)%Z ->
           Str.len line = (46 - Str.len "Hello world!" mod 2)%Z)
       /\ ((45 <= Str.len "Hello world!")%Z -> line = "Hello world!"%string).
Proof.
  assert (H : (Str.len "Hello world!" <= Str.ssize_max)%Z)
    by (vm_compute; discriminate).
  split; [ exact H | ].
  apply (@print_centred_width "Hello world!" EmptyString H).
Defined.

(** The call of the chapter: 17 stars on either side of [Hello world!]. *)
Example print_centred_hello :
  print_centred_in_stars "Hello world!" EmptyString
  = (Ok PyNone,
     ("*****************Hello world!*****************" ++ IO.newline)%string).
Proof.
  reflexivity.
Qed.

Lemma lower_upper_char (c : ascii) :
  Str.lower_char (Str.upper_char c) = Str.lower_char c.
Proof.
  destruct c as [[] [] [] [] [] [] [] []]; reflexivity.
Qed.

Lemma upper_lower_char (c : ascii) :
  Str.upper_char (Str.lower_char c) = Str.upper_char c.
Proof.
  destruct c as [[] [] [] [] [] [] [] []]; reflexivity.
Qed.

Lemma upper_upper_char (c : ascii) :
  Str.upper_char (Str.upper_char c) = Str.upper_char c.
Proof.
  destruct c as [[] [] [] [] [] [] [] []]; reflexivity.
Qed.

Lemma lower_lower_char (c : ascii) :
  Str.lower_char (Str.lower_char c) = Str.lower_char c.
Proof.
  destruct c as [[] [] [] [] [] [] [] []]; reflexivity.
Qed.

Lemma map_map_string (f g : ascii -> ascii) (s : string) :
  Str.map f (Str.map g s) = Str.map (fun c => f (g c)) s.
Proof.
  induction s as [ | c s IH ]; simpl; [ reflexivity | now rewrite IH ].
Qed.

Lemma map_ext_string (f g : ascii -> ascii) (s : string) :
  (forall c, f c = g c) -> Str.map f s = Str.map g s.
Proof.
  intros H. induction s as [ | c s IH ]; simpl;
    [ reflexivity | now rewrite H, IH ].
Qed.

Lemma map_length_string (f : ascii -> ascii) (s : string) :
  String.length (Str.map f s) = String.length s.
Proof.
  induction s as [ | c s IH ]; simpl; [ reflexivity | now rewrite IH ].
Qed.

(** On ASCII text, the two strings [upperAndLower] returns are as long as
    its argument; each is the other with the case changed; and the function
    gives the same pair again on either of them: the result depends on the
    letters, not on their case. *)
Theorem upperAndLower_forgets_case :
  forall s : string,
    Str.is_ascii s = true ->
    String.length (fst (upperAndLower s)) = String.length s
    /\ String.length (snd (upperAndLower s)) = String.length s
    /\ Str.lower (fst (upperAndLower s)) = snd (upperAndLower s)
    /\ Str.upper (snd (upperAndLower s)) = fst (upperAndLower s)
    /\ upperAndLower (fst (upperAndLower s)) = upperAndLower s
    /\ upperAndLower (snd (upperAndLower s)) = upperAndLower s.
Proof.
  intros s _. unfold upperAndLower, Str.upper, Str.lower. simpl.
  rewrite !map_length_string, !map_map_string.
  repeat split;
    first [ apply map_ext_string | f_equal; apply map_ext_string ];
    intros c;
    auto using lower_upper_char, upper_lower_char, upper_upper_char,
      lower_lower_char.
Qed.

Lemma upperAndLower_forgets_case_witness :
  Str.is_ascii "Banana" = true
  /\ upperAndLower "Banana" = ("BANANA"%string, "banana"%string)
  /\ String.length (fst (upperAndLower "Banana")) = String.length "Banana"
  /\ upperAndLower (fst (upperAndLower "Banana")) = upperAndLower "Banana".
Proof.
  split; [ reflexivity | split; [ reflexivity | ] ].
  pose proof (@upperAndLower_forgets_case "Banana" eq_refl) as H.
  split; [ exact (proj1 H) | exact (proj1 (proj2 (proj2 (proj2 (proj2 H))))) ].
Defined.

(** ** The programs that print the primes *)

Lemma for_each_print_end (A : Type) (f : A -> string) (e : string)
      (l : list A) :
  forall out : string,
    for_each l (fun p => print_end (f p) e) out
    = (Ok PyNone,
       (out ++ fold_right (fun p acc => f p ++ e ++ acc) EmptyString l)%string).
Proof.
  induction l as [ | p l IH ]; intros out; simpl.
  - now rewrite string_append_empty_r.
  - unfold IO.seq, print_end at 1. rewrite IH.
    now rewrite !string_append_assoc.
Qed.

Lemma print_primes_output (out : string) :
  print_primes out = (Ok PyNone, (out ++ "2 3 5 7 11 ")%string).
Proof.
  unfold print_primes. rewrite for_each_print_end. reflexivity.
Qed.

(** The three versions of the primes program.  The version with [main()] and
    the version with the loop under the guard do the same under every
    [__name__]: as a script they print [2 3 5 7 11 ], each prime followed by
    a space and no newline at the end, and imported they print nothing.  The
    version without the guard prints that text under every name, so also when
    it is imported. *)
Theorem primes_programs :
  forall (name out : string),
    primes_main.exec name out = primes_guarded.exec name out
    /\ primes_guarded.exec name out
       = (Ok PyNone,
          if String.eqb name "__main__" then (out ++ "2 3 5 7 11 ")%string
          else out)
    /\ primes_plain.exec name out = (Ok PyNone, (out ++ "2 3 5 7 11 ")%string).
Proof.
  intros name out.
  unfold primes_main.exec, primes_main.main, primes_guarded.exec,
    primes_plain.exec, IO.seq, IO.ret.
  rewrite !print_primes_output.
  destruct (String.eqb name "__main__"); repeat split;
    now rewrite ?print_primes_output.
Qed.

(** ** [norm] and the order of the components *)

Lemma wrap64_add_l (a b : Z) :
  vectools.wrap64 (vectools.wrap64 a + b) = vectools.wrap64 (a + b).
Proof.
  apply wrap64_congr.
  rewrite Zplus_mod, wrap64_mod, <- Zplus_mod. reflexivity.
Qed.

Lemma wrap64_add_r (a b : Z) :
  vectools.wrap64 (a + vectools.wrap64 b) = vectools.wrap64 (a + b).
Proof.
  rewrite Z.add_comm, wrap64_add_l. f_equal. lia.
Qed.

Lemma wrapped_sum_closed_form (l : list Z) :
  forall acc : Z,
    fold_left (fun a v => vectools.wrap64 (a + v))
      (List.map (fun v => vectools.wrap64 (v * v)) l) (vectools.wrap64 acc)
    = vectools.wrap64 (acc + Spec.sum_of_squares l).
Proof.
  induction l as [ | v l IH ]; simpl; intros acc.
  - f_equal. lia.
  - rewrite wrap64_add_l, wrap64_add_r, IH. f_equal. lia.
Qed.

(** What [norm] computes on an int64 vector, wrap-around and all: the square
    root of the exact sum of squares brought back into the int64 range. *)
Theorem int64_norm_closed_form :
  forall l : list Z,
    vectools.norm (vectools.Int64Array l)
    = math_sqrt (Float64.of_Z (vectools.wrap64 (Spec.sum_of_squares l))).
Proof.
  intros l. unfold vectools.norm. simpl.
  change 0%Z with (vectools.wrap64 0) at 1.
  now rewrite wrapped_sum_closed_form.
Qed.

Lemma sum_of_squares_permutation (l l' : list Z) :
  Permutation l l' -> Spec.sum_of_squares l = Spec.sum_of_squares l'.
Proof.
  induction 1 as [ | v l l' _ IH | u v l | l l' l'' _ IH1 _ IH2 ]; simpl;
    lia.
Qed.

(** On an int64 vector the order of the components does not matter. *)
Theorem int64_norm_permutation :
  forall l l' : list Z,
    Permutation l l' ->
    vectools.norm (vectools.Int64Array l)
    = vectools.norm (vectools.Int64Array l').
Proof.
  intros l l' H. unfold vectools.norm. simpl.
  change 0%Z with (vectools.wrap64 0).
  rewrite !wrapped_sum_closed_form.
  now rewrite (sum_of_squares_permutation H).
Qed.

Lemma int64_norm_permutation_witness :
  Permutation [0; 1; 2]%Z [2; 0; 1]%Z
  /\ vectools.norm (vectools.Int64Array [0; 1; 2]%Z)
     = vectools.norm (vectools.Int64Array [2; 0; 1]%Z).
Proof.
  assert (H : Permutation [0; 1; 2]%Z [2; 0; 1]%Z).
  { apply Permutation_sym.
    apply (@Permutation_cons_app Z [0; 1]%Z [0; 1]%Z [] 2%Z).
    apply Permutation_refl. }
  split; [ exact H | ].
  apply (@int64_norm_permutation [0; 1; 2]%Z [2; 0; 1]%Z H).
Defined.

(** On a float64 vector it does: the sum of squares is rounded after every
    addition, so that eight ones added one by one to [2 ** 54] are lost and
    added together first are not. *)
Theorem float64_norm_depends_on_order :
  ~ (forall l l' : list float,
        Permutation l l' ->
        vectools.norm (vectools.Float64Array l)
        = vectools.norm (vectools.Float64Array l')).
Proof.
  intros H.
  specialize (H (134217728 :: List.repeat 1 8)%float
                (List.repeat 1 8 ++ [134217728])%float).
  assert (P : Permutation (134217728 :: List.repeat 1 8)%float
                          (List.repeat 1 8 ++ [134217728])%float)
    by apply Permutation_cons_append.
  specialize (H P).
  apply (f_equal (fun r => match r with
                           | Ok f => (f =? 134217728)%float
                           | Raise _ => false
                           end)) in H.
  vm_compute in H. discriminate.
Qed.
